(** * SmartThings number platform: a shallow embedding of
    [custom_components/smartthings/number.py] and the properties of its
    capability registry, entity factory and number entity. *)

From Stdlib Require Import ZArith QArith Qround Floats.SpecFloat.
From stdpp Require Import base gmap strings list.

Local Open Scope Z_scope.
Local Open Scope string_scope.
Local Open Scope list_scope.

(** ** Python values, exceptions and results *)

(** The exceptions the module can see.  [Raised] stands for whatever the
    cloud SDK raises from a command call. *)
Inductive exn : Type :=
| KeyError (key : string)
| ValueError
| OverflowError
| Raised (what : string).

Inductive result (A : Type) : Type :=
| Ok (a : A)
| Raise (e : exn).
Arguments Ok {A} a.
Arguments Raise {A} e.

#[global] Instance result_ret : MRet result := fun _ a => Ok a.
#[global] Instance result_bind : MBind result := fun _ _ f r =>
  match r with
  | Ok a => f a
  | Raise e => Raise e
  end.

(** Subscription [d[k]] on the mappings of the program: on a [dict] an absent
    key is a [KeyError]. *)
Class GetItem (D V : Type) := getitem : D -> string -> result V.

(** A [dict] whose iteration order matters is the list of its items, in
    insertion order. *)
Definition dict (V : Type) : Type := list (string * V).

Fixpoint dict_lookup {V} (d : dict V) (k : string) : option V :=
  match d with
  | [] => None
  | (k', v) :: d' => if decide (k' = k) then Some v else dict_lookup d' k
  end.

Definition dict_keys {V} (d : dict V) : list string := fst <$> d.

Definition of_lookup {V} (k : string) (o : option V) : result V :=
  match o with
  | Some v => Ok v
  | None => Raise (KeyError k)
  end.

#[global] Instance dict_getitem {V} : GetItem (dict V) V :=
  fun d k => of_lookup k (dict_lookup d k).
#[global] Instance gmap_getitem {V} : GetItem (gmap string V) V :=
  fun d k => of_lookup k (d !! k).

(** A [defaultdict]: the items it holds and the value its factory gives for
    any other key, so that subscription never raises.  (Python also stores
    the default under the key, which no later subscription can tell from the
    key's absence.) *)
Record defaultdict (V : Type) : Type := Defaultdict {
  default_factory : V;
  stored : gmap string V;
}.
Arguments Defaultdict {V} default_factory stored.
Arguments default_factory {V} d.
Arguments stored {V} d.

#[global] Instance defaultdict_getitem {V} : GetItem (defaultdict V) V :=
  fun d k => Ok (default (default_factory d) (stored d !! k)).

(** A [float] is a binary floating-point datum: signed zeros, infinities,
    NaN and the finite [(-1)^s * m * 2^e]. *)
Definition float : Type := spec_float.

(** [int(value)] on a float truncates toward zero; it raises [ValueError] on
    NaN and [OverflowError] on an infinity. *)
Definition int (value : float) : result Z :=
  match value with
  | S754_zero _ => Ok 0
  | S754_finite s m e =>
      let magnitude := Z.shiftl (Z.pos m) e in
      Ok (if s then - magnitude else magnitude)
  | S754_infinity _ => Raise OverflowError
  | S754_nan => Raise ValueError
  end.

(** The rational a finite float denotes (0 for the data that denote none). *)
Definition float_value (value : float) : Q :=
  match value with
  | S754_finite s m e =>
      let q := match e with
               | Z0 => Z.pos m # 1
               | Zpos p => (Z.pos m * 2 ^ Z.pos p) # 1
               | Zneg p => Z.pos m # (2 ^ p)%positive
               end in
      if s then Qopp q else q
  | _ => 0%Q
  end.

Definition is_finite (value : float) : bool :=
  match value with
  | S754_zero _ | S754_finite _ _ _ => true
  | _ => false
  end.

(** Truncation toward zero of a rational. *)
Definition trunc (q : Q) : Z :=
  if Qle_bool 0 q then Qfloor q else Qceiling q.

Inductive pyvalue : Type :=
| PyNone
| PyInt (z : Z)
| PyFloat (f : float)
| PyStr (s : string).

(** ** Constants of the collaborators *)

(** [homeassistant.const.UnitOfTemperature] *)
Module UnitOfTemperature.
Definition CELSIUS : string := "°C".
Definition FAHRENHEIT : string := "°F".
End UnitOfTemperature.

(** [homeassistant.components.number.NumberMode] *)
Module NumberMode.
Definition AUTO : string := "auto".
End NumberMode.

(** [.capability] is not among the sources. *)
Module Capability.
(** Modelled from the spec: the identifier of the cooling-setpoint capability,
    the remote capability name the command API recognises. *)
Definition thermostat_cooling_setpoint : string := "thermostatCoolingSetpoint".
End Capability.

Module Attribute.
(** Modelled from the spec: the attribute key of the cooling setpoint. *)
Definition cooling_setpoint : string := "coolingSetpoint".
End Attribute.

Definition UNITS : gmap string string :=
  {[ "C" := UnitOfTemperature.CELSIUS; "F" := UnitOfTemperature.FAHRENHEIT ]}.

(** ** The capability registry *)

Module Map.
Record t : Type := Map {
  attribute : string;
  command : string;
  name : string;
  unit_of_measurement : option string;
  icon : option string;
  min_value : Z;
  max_value : Z;
  step : Z;
  mode : string;
}.
End Map.

Definition CAPABILITY_TO_NUMBER : dict (list Map.t) :=
  [ (Capability.thermostat_cooling_setpoint,
     [ Map.Map Attribute.cooling_setpoint
               "set_cooling_setpoint"
               "Cooling Setpoint"
               None
               (Some "mdi:thermometer")
               (-22)
               500
               1
               NumberMode.AUTO ]) ].

(** ** The device of the cloud SDK *)

(** One entry of the status cache: the last value and its unit. *)
Module Status.
Record t : Type := Status { value : pyvalue; unit : option string }.
End Status.

(** The status snapshot: the attributes of the main component, and those of
    each named component. *)
Module DeviceStatus.
Record t : Type := DeviceStatus {
  attributes : gmap string Status.t;
  components : gmap string (gmap string Status.t);
}.
End DeviceStatus.

(** The SDK's [STATUS_NONE]: no value and no unit. *)
Definition STATUS_NONE : Status.t := Status.Status PyNone None.

(** The attribute mappings of a status, of the device and of each component,
    are [defaultdict]s on [STATUS_NONE]: an attribute they do not hold reads
    as a default rather than failing.  The [components] mapping is a plain
    [dict]. *)
Definition status_attributes (attributes : gmap string Status.t)
    : defaultdict Status.t :=
  Defaultdict STATUS_NONE attributes.

Module DeviceEntity.
Record t : Type := DeviceEntity {
  device_id : string;
  label : string;
  (** component -> the capabilities it advertises *)
  components : dict (list string);
  status : DeviceStatus.t;
  (** [command(component_id, capability, command, args)]: the outcome of
      the remote call, a success flag or the exception it raises *)
  command : string -> string -> string -> list Z -> result bool;
}.
End DeviceEntity.

(** ** The number entity *)

Module SmartThingsNumber.
Record t : Type := SmartThingsNumber {
  _device : DeviceEntity.t;
  _component : string;
  _attribute : string;
  _command : string;
  _name : string;
  _attr_native_unit_of_measurement : option string;
  _icon : option string;
  _attr_native_min_value : Z;
  _attr_native_max_value : Z;
  _attr_native_step : Z;
  _attr_mode : string;
}.
End SmartThingsNumber.
Import SmartThingsNumber.

(** ** Effects: what the module asks of the host framework and the SDK *)

Inductive event : Type :=
| DeviceCommand (device_id component capability command : string) (args : list Z)
| WriteHaState (entity : SmartThingsNumber.t)
| AddEntities (numbers : list SmartThingsNumber.t).

(** A computation appends to the trace of events and returns or raises. *)
Definition M (A : Type) : Type := list event -> result A * list event.

#[global] Instance M_ret : MRet M := fun _ a tr => (Ok a, tr).
#[global] Instance M_bind : MBind M := fun _ _ f m tr =>
  match m tr with
  | (Ok a, tr') => f a tr'
  | (Raise e, tr') => (Raise e, tr')
  end.

Definition lift {A} (r : result A) : M A := fun tr => (r, tr).
Definition emit (ev : event) : M unit := fun tr => (Ok tt, tr ++ [ev]).
Definition run {A} (m : M A) : result A * list event := m [].

(** [await self._device.command(...)]: the call is issued, then its outcome
    is returned or raised. *)
Definition device_command (device : DeviceEntity.t)
    (component capability command : string) (args : list Z) : M bool :=
  _ ← emit (DeviceCommand (DeviceEntity.device_id device) component capability command args);
  lift (DeviceEntity.command device component capability command args).

Definition async_write_ha_state (self : SmartThingsNumber.t) : M unit :=
  emit (WriteHaState self).

(** ** The device broker *)

Module DeviceBroker.
(** Modelled from the spec: the broker lives in the package's [__init__],
    which is not among the sources; it lists the devices and gives, for a
    device and a platform, the capabilities assigned to that platform. *)
Record t : Type := DeviceBroker {
  devices : dict DeviceEntity.t;
  get_assigned : string -> string -> list string;
}.
End DeviceBroker.

Definition dict_values {V} (d : dict V) : list V := snd <$> d.

(** ** [async_setup_entry] *)

(** A [for] loop whose body updates the loop state and may raise. *)
Fixpoint for_each {A S} (xs : list A) (body : A -> S -> result S) (s : S) : result S :=
  match xs with
  | [] => Ok s
  | x :: xs' => s' ← body x s; for_each xs' body s'
  end.

(** The list comprehension [[SmartThingsNumber(device, component, m.attribute,
    ...) for m in maps]]. *)
Definition numbers_of (device : DeviceEntity.t) (component : string)
    (maps : list Map.t) : list SmartThingsNumber.t :=
  (fun m =>
     SmartThingsNumber device component
       (Map.attribute m) (Map.command m) (Map.name m)
       (Map.unit_of_measurement m) (Map.icon m)
       (Map.min_value m) (Map.max_value m) (Map.step m) (Map.mode m))
  <$> maps.

(** The first loop over a device: its assigned capabilities, bound to "main". *)
Definition assigned_loop (device : DeviceEntity.t) (assigned : list string)
    (numbers : list SmartThingsNumber.t) : result (list SmartThingsNumber.t) :=
  for_each assigned
    (fun capability numbers =>
       maps ← getitem CAPABILITY_TO_NUMBER capability;
       mret (numbers ++ numbers_of device "main" maps))
    numbers.

(** The second loop over a device: the capabilities of each of its components,
    those outside [device_capabilities_for_number] being skipped. *)
Definition component_loop (device : DeviceEntity.t)
    (device_capabilities_for_number : list string)
    (numbers : list SmartThingsNumber.t) : result (list SmartThingsNumber.t) :=
  for_each (dict_keys (DeviceEntity.components device))
    (fun component numbers =>
       capabilities ← getitem (DeviceEntity.components device) component;
       for_each capabilities
         (fun capability numbers =>
            if decide (capability ∉ device_capabilities_for_number)
            then mret numbers
            else
              maps ← getitem CAPABILITY_TO_NUMBER capability;
              mret (numbers ++ numbers_of device component maps))
         numbers)
    numbers.

Definition device_loop (broker : DeviceBroker.t) (device : DeviceEntity.t)
    (numbers : list SmartThingsNumber.t) : result (list SmartThingsNumber.t) :=
  numbers ← assigned_loop device
    (DeviceBroker.get_assigned broker (DeviceEntity.device_id device) "number") numbers;
  let device_capabilities_for_number :=
    DeviceBroker.get_assigned broker (DeviceEntity.device_id device) "number" in
  component_loop device device_capabilities_for_number numbers.

(** The entities the factory builds, or the exception that ends the setup. *)
Definition collect_numbers (broker : DeviceBroker.t) : result (list SmartThingsNumber.t) :=
  for_each (dict_values (DeviceBroker.devices broker)) (device_loop broker) [].

(** The broker is [hass.data[DOMAIN][DATA_BROKERS][config_entry.entry_id]];
    the debug logging has no part in the result. *)
Definition async_setup_entry (broker : DeviceBroker.t) : M unit :=
  numbers ← lift (collect_numbers broker);
  emit (AddEntities numbers).

(** ** [get_capabilities] *)

(** The declared return type is [Sequence[str] | None]. *)
Definition get_capabilities (capabilities : list string) : option (list string) :=
  Some (filter (fun capability => capability ∈ capabilities)
               (dict_keys CAPABILITY_TO_NUMBER)).

(** ** The methods of [SmartThingsNumber] *)

Definition async_set_native_value (self : SmartThingsNumber.t) (value : float) : M unit :=
  n ← lift (int value);
  _ ← device_command (_device self) (_component self)
        "thermostatCoolingSetpoint" "setCoolingSetpoint" [n];
  async_write_ha_state self.

Definition name (self : SmartThingsNumber.t) : string :=
  if decide (_component self = "main")
  then DeviceEntity.label (_device self) +:+ " " +:+ _name self
  else DeviceEntity.label (_device self) +:+ " " +:+ _component self +:+ " " +:+ _name self.

Definition unique_id (self : SmartThingsNumber.t) : string :=
  if decide (_component self = "main")
  then DeviceEntity.device_id (_device self) +:+ "." +:+ _attribute self
  else DeviceEntity.device_id (_device self) +:+ "." +:+ _component self
         +:+ "." +:+ _attribute self.

(** The entry of the status cache a property reads: that of the device for
    "main", that of the named component otherwise. *)
Definition status_entry (self : SmartThingsNumber.t) : result Status.t :=
  let status := DeviceEntity.status (_device self) in
  if decide (_component self = "main")
  then getitem (status_attributes (DeviceStatus.attributes status)) (_attribute self)
  else
    attributes ← getitem (DeviceStatus.components status) (_component self);
    getitem (status_attributes attributes) (_attribute self).

Definition native_value (self : SmartThingsNumber.t) : result pyvalue :=
  entry ← status_entry self;
  mret (Status.value entry).

Definition icon (self : SmartThingsNumber.t) : option string := _icon self.

Definition native_min_value (self : SmartThingsNumber.t) : result Z :=
  entry ← status_entry self;
  let unit := Status.unit entry in
  if decide (_component self = "cooler") then
    if decide (unit = Some "F") then mret 34
    else if decide (unit = Some "C") then mret 1
    else mret (_attr_native_min_value self)
  else if decide (_component self = "freezer") then
    if decide (unit = Some "F") then mret (-8)
    else if decide (unit = Some "C") then mret (-22)
    else mret (_attr_native_min_value self)
  else mret (_attr_native_min_value self).

Definition native_max_value (self : SmartThingsNumber.t) : result Z :=
  entry ← status_entry self;
  let unit := Status.unit entry in
  if decide (_component self = "cooler") then
    if decide (unit = Some "F") then mret 44
    else if decide (unit = Some "C") then mret 6
    else mret (_attr_native_max_value self)
  else if decide (_component self = "freezer") then
    if decide (unit = Some "F") then mret 5
    else if decide (unit = Some "C") then mret (-15)
    else mret (_attr_native_max_value self)
  else mret (_attr_native_max_value self).

Definition native_step (self : SmartThingsNumber.t) : Z := _attr_native_step self.

(** Truthiness of [unit]: [None] and the empty string are false. *)
Definition truthy (unit : option string) : bool :=
  match unit with
  | None | Some "" => false
  | Some _ => true
  end.

(** [UNITS.get(unit, unit)] *)
Definition units_get (unit : string) : string := default unit (UNITS !! unit).

Definition native_unit_of_measurement (self : SmartThingsNumber.t) : result (option string) :=
  entry ← status_entry self;
  match Status.unit entry with
  | Some unit =>
      if truthy (Some unit) then mret (Some (units_get unit))
      else mret (_attr_native_unit_of_measurement self)
  | None => mret (_attr_native_unit_of_measurement self)
  end.

Definition mode (self : SmartThingsNumber.t) : string := _attr_mode self.

(** ** Specification-side views *)

(** The status cache as the mapping (component, attribute) -> entry. *)
Definition cache_entry (status : DeviceStatus.t) (component attribute : string)
    : option Status.t :=
  if decide (component = "main")
  then DeviceStatus.attributes status !! attribute
  else DeviceStatus.components status !! component ≫= (.!! attribute).

(** The unit the status cache holds for (component, attribute): none when
    the entry has no unit or there is no entry. *)
Definition cache_unit (status : DeviceStatus.t) (component attribute : string)
    : option string :=
  cache_entry status component attribute ≫= Status.unit.

(** The remote command calls of a trace. *)
Definition is_device_command (ev : event) : bool :=
  match ev with
  | DeviceCommand _ _ _ _ _ => true
  | _ => false
  end.

Definition device_commands (tr : list event) : list event :=
  filter (fun ev => is_device_command ev = true) tr.

(** The state-write signals of a trace. *)
Definition is_write_ha_state (ev : event) : bool :=
  match ev with
  | WriteHaState _ => true
  | _ => false
  end.

Definition state_writes (tr : list event) : list event :=
  filter (fun ev => is_write_ha_state ev = true) tr.

(** The command call [async_set_native_value] makes for the integer [n]. *)
Definition cooling_setpoint_call (self : SmartThingsNumber.t) (n : Z) : event :=
  DeviceCommand (DeviceEntity.device_id (_device self)) (_component self)
    "thermostatCoolingSetpoint" "setCoolingSetpoint" [n].

(** The binary64 datum of the literal [21.7]. *)
Definition float_21_7 : float := S754_finite false 6108006994621235 (-48).

(** The descriptors of a capability, none for an unknown one. *)
Definition maps_of (capability : string) : list Map.t :=
  default [] (dict_lookup CAPABILITY_TO_NUMBER capability).

(** The entities of a device, as a comprehension: one per descriptor of each
    assigned capability, bound to "main"; then one per descriptor of each
    assigned capability a component advertises, bound to that component. *)
Definition main_numbers (device : DeviceEntity.t) (assigned : list string)
    : list SmartThingsNumber.t :=
  assigned ≫= (fun capability => numbers_of device "main" (maps_of capability)).

Definition component_numbers (device : DeviceEntity.t) (assigned : list string)
    : list SmartThingsNumber.t :=
  dict_keys (DeviceEntity.components device) ≫= (fun component =>
    default [] (dict_lookup (DeviceEntity.components device) component) ≫=
      (fun capability =>
         if decide (capability ∈ assigned)
         then numbers_of device component (maps_of capability)
         else [])).

Definition device_numbers (broker : DeviceBroker.t) (device : DeviceEntity.t)
    : list SmartThingsNumber.t :=
  let assigned :=
    DeviceBroker.get_assigned broker (DeviceEntity.device_id device) "number" in
  main_numbers device assigned ++ component_numbers device assigned.

Definition all_numbers (broker : DeviceBroker.t) : list SmartThingsNumber.t :=
  dict_values (DeviceBroker.devices broker) ≫= device_numbers broker.

(** The exceptions of a lookup in the registry with an unknown capability. *)
Definition unknown_capability (e : exn) : Prop :=
  exists key, e = KeyError key /\ key ∉ dict_keys CAPABILITY_TO_NUMBER.

(** ** Sample data: a fridge with a cooler, a freezer and a second room *)

Definition sample_status : DeviceStatus.t :=
  DeviceStatus.DeviceStatus
    {[ "coolingSetpoint" := Status.Status (PyInt 20) (Some "C") ]}
    {[ "cooler" := {[ "coolingSetpoint" := Status.Status (PyInt 38) (Some "F") ]};
       "freezer" := {[ "coolingSetpoint" := Status.Status (PyInt (-18)) (Some "C") ]};
       "room2" := {[ "coolingSetpoint" := Status.Status (PyInt 21) (Some "K") ]};
       "room3" := {[ "coolingSetpoint" := Status.Status PyNone None ]} ]}.

Definition sample_device : DeviceEntity.t :=
  DeviceEntity.DeviceEntity "dev-1" "Fridge"
    [("room2", [Capability.thermostat_cooling_setpoint])]
    sample_status
    (fun _ _ _ _ => Ok true).

(** The same device behind a cloud that times out. *)
Definition offline_device : DeviceEntity.t :=
  DeviceEntity.DeviceEntity "dev-1" "Fridge"
    [("room2", [Capability.thermostat_cooling_setpoint])]
    sample_status
    (fun _ _ _ _ => Raise (Raised "timeout")).

Definition sample_number (device : DeviceEntity.t) (component : string)
    : SmartThingsNumber.t :=
  SmartThingsNumber device component Attribute.cooling_setpoint
    "set_cooling_setpoint" "Cooling Setpoint" (Some "deg") (Some "mdi:thermometer")
    (-22) 500 1 NumberMode.AUTO.

Definition sample_broker : DeviceBroker.t :=
  DeviceBroker.DeviceBroker
    [("dev-1", sample_device)]
    (fun _ _ => [Capability.thermostat_cooling_setpoint]).

(** A broker that assigns a capability the registry does not know. *)
Definition unknown_broker : DeviceBroker.t :=
  DeviceBroker.DeviceBroker
    [("dev-1", sample_device)]
    (fun _ _ => [Capability.thermostat_cooling_setpoint; "thermostatHeatingSetpoint"]).

(** * Properties *)

Lemma bind_Ok {A B} (f : A -> result B) (a : A) : Ok a ≫= f = f a.
Proof. reflexivity. Qed.

Lemma bind_Raise {A B} (f : A -> result B) (e : exn) : Raise e ≫= f = Raise e.
Proof. reflexivity. Qed.

(** ** Truncation *)

Lemma trunc_nonneg (n : Z) (d : positive) :
  0 <= n -> trunc (n # d) = n / Z.pos d.
Proof.
  intros Hn. unfold trunc.
  destruct (Qle_bool 0 (n # d)) eqn:Hle; [reflexivity|].
  exfalso. apply not_true_iff_false in Hle. apply Hle.
  apply Qle_bool_iff. unfold Qle; simpl. lia.
Qed.

Lemma trunc_neg (n : Z) (d : positive) :
  0 < n -> trunc (Qopp (n # d)) = - (n / Z.pos d).
Proof.
  intros Hn. unfold trunc.
  destruct (Qle_bool 0 (Qopp (n # d))) eqn:Hle.
  - apply Qle_bool_iff in Hle. unfold Qle in Hle; simpl in Hle. lia.
  - unfold Qceiling. rewrite Qopp_involutive. reflexivity.
Qed.

(** Truncation toward zero lies between zero and the number, less than one
    away from it. *)
Lemma trunc_toward_zero (q : Q) :
  (0 <= q -> inject_Z (trunc q) <= q /\ q < inject_Z (trunc q + 1))%Q /\
  (q <= 0 -> q <= inject_Z (trunc q) /\ inject_Z (trunc q - 1) < q)%Q.
Proof.
  unfold trunc. split; intros Hq.
  - apply Qle_bool_iff in Hq as Hb. rewrite Hb.
    split; [apply Qfloor_le | apply Qlt_floor].
  - destruct (Qle_bool 0 q) eqn:Hb.
    + apply Qle_bool_iff in Hb.
      split.
      * apply Qle_trans with (inject_Z 0); [exact Hq|].
        rewrite <- Zle_Qle. change 0 with (Qfloor 0). apply Qfloor_resp_le, Hb.
      * apply Qlt_le_trans with (inject_Z (Qfloor q)); [|apply Qfloor_le].
        rewrite <- Zlt_Qlt. lia.
    + split; [apply Qle_ceiling | apply Qceiling_lt].
Qed.

Lemma int_finite (value : float) :
  is_finite value = true -> int value = Ok (trunc (float_value value)).
Proof.
  destruct value as [s|s| |s m e]; simpl; try discriminate; intros _.
  - reflexivity.
  - f_equal. destruct e as [|p|p], s; simpl float_value.
    + rewrite trunc_neg, Z.shiftl_0_r, Z.div_1_r by lia. reflexivity.
    + rewrite trunc_nonneg, Z.shiftl_0_r, Z.div_1_r by lia. reflexivity.
    + rewrite trunc_neg, Z.div_1_r, Z.shiftl_mul_pow2 by lia. reflexivity.
    + rewrite trunc_nonneg, Z.div_1_r, Z.shiftl_mul_pow2 by lia. reflexivity.
    + rewrite trunc_neg by lia. change (Z.neg p) with (- Z.pos p).
      rewrite Z.shiftl_opp_r, Z.shiftr_div_pow2, Pos2Z.inj_pow by lia.
      reflexivity.
    + rewrite trunc_nonneg by lia. change (Z.neg p) with (- Z.pos p).
      rewrite Z.shiftl_opp_r, Z.shiftr_div_pow2, Pos2Z.inj_pow by lia.
      reflexivity.
Qed.

(** ** [async_set_native_value] *)

Lemma async_set_native_value_run (self : SmartThingsNumber.t) (value : float) (n : Z) :
  int value = Ok n ->
  run (async_set_native_value self value) =
    match DeviceEntity.command (_device self) (_component self)
            "thermostatCoolingSetpoint" "setCoolingSetpoint" [n] with
    | Ok _ => (Ok tt, [cooling_setpoint_call self n; WriteHaState self])
    | Raise e => (Raise e, [cooling_setpoint_call self n])
    end.
Proof.
  intros Hn.
  unfold run, async_set_native_value, device_command, async_write_ha_state,
    cooling_setpoint_call, mbind, M_bind, lift, emit.
  rewrite Hn. simpl.
  destruct (DeviceEntity.command _ _ _ _ _); reflexivity.
Qed.

Lemma async_set_native_value_int_raises (self : SmartThingsNumber.t) (value : float) (e : exn) :
  int value = Raise e -> run (async_set_native_value self value) = (Raise e, []).
Proof.
  intros Hn. unfold run, async_set_native_value, mbind, M_bind, lift.
  rewrite Hn. reflexivity.
Qed.

(** C1, as amended: for every finite float value, [async_set_native_value]
    issues exactly one remote command call, addressed to the bound component,
    with capability "thermostatCoolingSetpoint", command "setCoolingSetpoint"
    and the argument list holding the value truncated toward zero, whatever
    command and attribute the entity was built with; for 21.7 the argument
    list is [21]. *)
Theorem set_value_issues_one_truncated_command
    (self : SmartThingsNumber.t) (value : float) :
  is_finite value = true ->
  device_commands (snd (run (async_set_native_value self value))) =
    [DeviceCommand (DeviceEntity.device_id (_device self)) (_component self)
       "thermostatCoolingSetpoint" "setCoolingSetpoint"
       [trunc (float_value value)]]
  /\ device_commands (snd (run (async_set_native_value self float_21_7))) =
    [DeviceCommand (DeviceEntity.device_id (_device self)) (_component self)
       "thermostatCoolingSetpoint" "setCoolingSetpoint" [21]].
Proof.
  intros Hfin. split.
  - rewrite (async_set_native_value_run self value _ (int_finite value Hfin)).
    destruct (DeviceEntity.command _ _ _ _ _); reflexivity.
  - rewrite (async_set_native_value_run self float_21_7 21 eq_refl).
    destruct (DeviceEntity.command _ _ _ _ _); reflexivity.
Qed.

Lemma set_value_issues_one_truncated_command_witness :
  is_finite float_21_7 = true /\
  device_commands
    (snd (run (async_set_native_value (sample_number sample_device "cooler") float_21_7))) =
    [DeviceCommand "dev-1" "cooler" "thermostatCoolingSetpoint" "setCoolingSetpoint" [21]].
Proof.
  split; [reflexivity|].
  exact (proj1 (set_value_issues_one_truncated_command
                  (sample_number sample_device "cooler") float_21_7 eq_refl)).
Defined.

(** C1, as stated, fails on NaN: [int] raises before any command is issued. *)
Lemma set_value_nan_issues_no_command :
  run (async_set_native_value (sample_number sample_device "main") S754_nan)
    = (Raise ValueError, [])
  /\ device_commands
       (snd (run (async_set_native_value (sample_number sample_device "main") S754_nan)))
     = [].
Proof. split; reflexivity. Qed.

(** C8: when the remote command call raises, [async_set_native_value] raises
    that same exception after that single call, and the state-write signal is
    not issued; a state-write signal in the trace means the call returned. *)
Theorem set_value_failure_propagates (self : SmartThingsNumber.t) (value : float) :
  (forall n e,
      int value = Ok n ->
      DeviceEntity.command (_device self) (_component self)
        "thermostatCoolingSetpoint" "setCoolingSetpoint" [n] = Raise e ->
      run (async_set_native_value self value)
        = (Raise e, [cooling_setpoint_call self n])
      /\ state_writes (snd (run (async_set_native_value self value))) = [])
  /\ (state_writes (snd (run (async_set_native_value self value))) <> [] ->
      exists n b,
        int value = Ok n
        /\ DeviceEntity.command (_device self) (_component self)
             "thermostatCoolingSetpoint" "setCoolingSetpoint" [n] = Ok b
        /\ run (async_set_native_value self value)
           = (Ok tt, [cooling_setpoint_call self n; WriteHaState self])).
Proof.
  split.
  - intros n e Hn He.
    rewrite (async_set_native_value_run self value n Hn), He. split; reflexivity.
  - destruct (int value) as [n|e] eqn:Hn.
    + rewrite (async_set_native_value_run self value n Hn).
      destruct (DeviceEntity.command _ _ _ _ _) as [b|e] eqn:Hc.
      * intros _. exists n, b. split; [reflexivity|]. split; [exact Hc | reflexivity].
      * intros H. exfalso. apply H. reflexivity.
    + rewrite (async_set_native_value_int_raises self value e Hn).
      intros H. exfalso. apply H. reflexivity.
Qed.

Lemma set_value_failure_propagates_witness :
  run (async_set_native_value (sample_number offline_device "freezer") float_21_7)
    = (Raise (Raised "timeout"),
       [DeviceCommand "dev-1" "freezer" "thermostatCoolingSetpoint"
          "setCoolingSetpoint" [21]])
  /\ state_writes
       (snd (run (async_set_native_value (sample_number offline_device "freezer")
                    float_21_7))) = [].
Proof.
  exact (proj1 (set_value_failure_propagates
                  (sample_number offline_device "freezer") float_21_7)
               21 (Raised "timeout") eq_refl eq_refl).
Defined.

(** ** The status cache as the properties read it *)

Lemma status_entry_present (self : SmartThingsNumber.t) (entry : Status.t) :
  cache_entry (DeviceEntity.status (_device self)) (_component self) (_attribute self)
    = Some entry ->
  status_entry self = Ok entry.
Proof.
  unfold cache_entry, status_entry, getitem, gmap_getitem, defaultdict_getitem.
  destruct (decide (_component self = "main")) as [_|_].
  - simpl. intros ->. reflexivity.
  - destruct (DeviceStatus.components _ !! _component self) as [attributes|]; simpl.
    + intros ->. reflexivity.
    + discriminate.
Qed.

(** The status of "main" and of a component the cache holds is read without
    failure: the entry, or [STATUS_NONE] for an attribute it does not hold. *)
Lemma status_entry_cached (self : SmartThingsNumber.t) :
  _component self = "main"
  \/ is_Some (DeviceStatus.components (DeviceEntity.status (_device self))
                !! _component self) ->
  status_entry self =
    Ok (default STATUS_NONE
          (cache_entry (DeviceEntity.status (_device self))
             (_component self) (_attribute self))).
Proof.
  unfold cache_entry, status_entry, getitem, gmap_getitem, defaultdict_getitem.
  destruct (decide (_component self = "main")) as [_|Hother].
  - intros _. reflexivity.
  - intros [Hmain|[attributes Hattributes]]; [done|].
    rewrite Hattributes. reflexivity.
Qed.

(** A named component the cache does not hold is a [KeyError]. *)
Lemma status_entry_component_missing (self : SmartThingsNumber.t) :
  _component self <> "main" ->
  DeviceStatus.components (DeviceEntity.status (_device self)) !! _component self
    = None ->
  status_entry self = Raise (KeyError (_component self)).
Proof.
  intros Hother Hmissing.
  unfold status_entry, getitem, gmap_getitem.
  rewrite decide_False by exact Hother. rewrite Hmissing. reflexivity.
Qed.

Lemma unit_of_cached (o : option Status.t) :
  Status.unit (default STATUS_NONE o) = o ≫= Status.unit.
Proof. destruct o; reflexivity. Qed.


(** ** Bounds *)

(** C3: with the entry in the status cache, a "cooler" or "freezer" entity
    takes its bounds from the fixed table keyed by the cached unit, whatever
    bounds it was built with: cooler F 34/44, cooler C 1/6, freezer F -8/5,
    freezer C -22/-15. *)
Theorem cooler_freezer_bounds_from_table (self : SmartThingsNumber.t) (entry : Status.t) :
  cache_entry (DeviceEntity.status (_device self)) (_component self) (_attribute self)
    = Some entry ->
  (_component self = "cooler" -> Status.unit entry = Some "F" ->
     native_min_value self = Ok 34 /\ native_max_value self = Ok 44)
  /\ (_component self = "cooler" -> Status.unit entry = Some "C" ->
     native_min_value self = Ok 1 /\ native_max_value self = Ok 6)
  /\ (_component self = "freezer" -> Status.unit entry = Some "F" ->
     native_min_value self = Ok (-8) /\ native_max_value self = Ok 5)
  /\ (_component self = "freezer" -> Status.unit entry = Some "C" ->
     native_min_value self = Ok (-22) /\ native_max_value self = Ok (-15)).
Proof.
  intros Hentry%status_entry_present.
  split; [|split; [|split]]; intros Hc Hu;
    unfold native_min_value, native_max_value;
    rewrite Hentry; simpl; rewrite Hc, Hu; split; reflexivity.
Qed.

Lemma cooler_freezer_bounds_from_table_witness :
  native_min_value (sample_number sample_device "cooler") = Ok 34
  /\ native_max_value (sample_number sample_device "cooler") = Ok 44.
Proof.
  exact (proj1 (cooler_freezer_bounds_from_table
                  (sample_number sample_device "cooler")
                  (Status.Status (PyInt 38) (Some "F"))
                  ltac:(vm_compute; reflexivity))
               eq_refl eq_refl).
Defined.

(** C4, as amended: for an entity bound to "main" or to a component the
    status cache holds, when the component is neither "cooler" nor "freezer",
    or the unit cached for the attribute is neither "F" nor "C" (no unit and
    no entry included), both getters return exactly the bounds the entity
    was built with. *)
Theorem other_bounds_from_descriptor (self : SmartThingsNumber.t) :
  _component self = "main"
  \/ is_Some (DeviceStatus.components (DeviceEntity.status (_device self))
                !! _component self) ->
  (_component self <> "cooler" /\ _component self <> "freezer")
  \/ (cache_unit (DeviceEntity.status (_device self)) (_component self) (_attribute self)
        <> Some "F"
      /\ cache_unit (DeviceEntity.status (_device self)) (_component self) (_attribute self)
        <> Some "C") ->
  native_min_value self = Ok (_attr_native_min_value self)
  /\ native_max_value self = Ok (_attr_native_max_value self).
Proof.
  intros Hentry%status_entry_cached Hcase. unfold cache_unit in Hcase.
  unfold native_min_value, native_max_value.
  rewrite Hentry, !bind_Ok. cbv zeta. rewrite unit_of_cached.
  destruct Hcase as [[Hc Hf]|[HF HC]]; repeat case_decide; try done.
Qed.

Lemma other_bounds_from_descriptor_witness :
  native_min_value
    (SmartThingsNumber sample_device "cooler" "heatingSetpoint" "set_heating_setpoint"
       "Heating Setpoint" None None 5 30 1 NumberMode.AUTO) = Ok 5
  /\ native_max_value
    (SmartThingsNumber sample_device "cooler" "heatingSetpoint" "set_heating_setpoint"
       "Heating Setpoint" None None 5 30 1 NumberMode.AUTO) = Ok 30.
Proof.
  apply (other_bounds_from_descriptor
           (SmartThingsNumber sample_device "cooler" "heatingSetpoint"
              "set_heating_setpoint" "Heating Setpoint" None None 5 30 1
              NumberMode.AUTO)).
  - right. vm_compute. eexists. reflexivity.
  - right. split; vm_compute; discriminate.
Defined.

(** C4, as stated, fails where the status cache has no entry for the
    component: the entity is bound to "attic", neither "cooler" nor "freezer",
    and both getters raise instead of returning its bounds. *)
Lemma bounds_of_uncached_component_raise :
  _component (sample_number sample_device "attic") <> "cooler"
  /\ _component (sample_number sample_device "attic") <> "freezer"
  /\ native_min_value (sample_number sample_device "attic") = Raise (KeyError "attic")
  /\ native_max_value (sample_number sample_device "attic") = Raise (KeyError "attic")
  /\ native_min_value (sample_number sample_device "attic")
     <> Ok (_attr_native_min_value (sample_number sample_device "attic")).
Proof.
  split; [discriminate|]. split; [discriminate|].
  split; [vm_compute; reflexivity|]. split; [vm_compute; reflexivity|].
  vm_compute. discriminate.
Qed.

(** C10, as amended: the bounds read the status before any component test,
    for every component: for a component other than "main" that the status
    cache does not hold, both getters raise the [KeyError] of the component
    and return no bound.  An attribute absent from the status of "main" or
    of a component the cache holds raises nothing: it reads as no unit, and
    both getters return the bounds the entity was built with. *)
Theorem bounds_raise_when_component_missing (self : SmartThingsNumber.t) :
  (_component self <> "main" ->
   DeviceStatus.components (DeviceEntity.status (_device self)) !! _component self
     = None ->
   native_min_value self = Raise (KeyError (_component self))
   /\ native_max_value self = Raise (KeyError (_component self)))
  /\ (_component self = "main"
      \/ is_Some (DeviceStatus.components (DeviceEntity.status (_device self))
                    !! _component self) ->
      cache_entry (DeviceEntity.status (_device self)) (_component self) (_attribute self)
        = None ->
      native_min_value self = Ok (_attr_native_min_value self)
      /\ native_max_value self = Ok (_attr_native_max_value self)).
Proof.
  split.
  - intros Hother Hmissing.
    unfold native_min_value, native_max_value.
    rewrite (status_entry_component_missing self Hother Hmissing), !bind_Raise.
    split; reflexivity.
  - intros Hentry%status_entry_cached Habsent.
    unfold native_min_value, native_max_value.
    rewrite Hentry, Habsent, !bind_Ok. simpl.
    repeat case_decide; split; reflexivity.
Qed.

Lemma bounds_raise_when_component_missing_witness :
  native_min_value (sample_number sample_device "attic") = Raise (KeyError "attic")
  /\ native_max_value (sample_number sample_device "attic") = Raise (KeyError "attic").
Proof.
  apply (proj1 (bounds_raise_when_component_missing (sample_number sample_device "attic"))).
  - discriminate.
  - vm_compute; reflexivity.
Defined.

(** C10, as stated, fails where only the attribute is absent: the status of
    "main" and that of "cooler" hold no "heatingSetpoint", and both getters
    return the bounds the entity was built with. *)
Lemma bounds_of_absent_attribute_returned :
  cache_entry sample_status "main" "heatingSetpoint" = None
  /\ native_min_value
       (SmartThingsNumber sample_device "main" "heatingSetpoint" "set_heating_setpoint"
          "Heating Setpoint" None None (-22) 500 1 NumberMode.AUTO) = Ok (-22)
  /\ native_max_value
       (SmartThingsNumber sample_device "main" "heatingSetpoint" "set_heating_setpoint"
          "Heating Setpoint" None None (-22) 500 1 NumberMode.AUTO) = Ok 500
  /\ cache_entry sample_status "cooler" "heatingSetpoint" = None
  /\ native_min_value
       (SmartThingsNumber sample_device "cooler" "heatingSetpoint" "set_heating_setpoint"
          "Heating Setpoint" None None (-22) 500 1 NumberMode.AUTO) = Ok (-22)
  /\ native_max_value
       (SmartThingsNumber sample_device "cooler" "heatingSetpoint" "set_heating_setpoint"
          "Heating Setpoint" None None (-22) 500 1 NumberMode.AUTO) = Ok 500.
Proof. repeat split; vm_compute; reflexivity. Qed.

(** ** Unit of measurement *)

Lemma units_get_other (unit : string) :
  unit <> "C" -> unit <> "F" -> units_get unit = unit.
Proof.
  intros HC HF. unfold units_get, UNITS.
  rewrite lookup_insert_ne by congruence.
  rewrite lookup_singleton_ne by congruence.
  reflexivity.
Qed.

Lemma truthy_nonempty (unit : string) : unit <> "" -> truthy (Some unit) = true.
Proof. destruct unit; [congruence | reflexivity]. Qed.



(** ** Naming *)

Lemma string_length_app (s1 s2 : string) :
  String.length (s1 +:+ s2) = (String.length s1 + String.length s2)%nat.
Proof. induction s1 as [|a s1 IH]; simpl; [reflexivity | f_equal; exact IH]. Qed.

Lemma prefixed_differs (h sep c tail : string) :
  (0 < String.length sep)%nat ->
  h +:+ sep +:+ c +:+ sep +:+ tail <> h +:+ sep +:+ tail.
Proof.
  intros Hsep Heq. apply (f_equal String.length) in Heq.
  repeat rewrite string_length_app in Heq. lia.
Qed.

(** C7: the unique id is "{device_id}.{attribute}" for the component "main"
    and "{device_id}.{component}.{attribute}" for any other; the name is
    composed the same way from the device label and the display name, with
    spaces; the component is left out exactly when it is "main". *)
Theorem unique_id_and_name_composition (self : SmartThingsNumber.t) :
  (_component self = "main" ->
     unique_id self = DeviceEntity.device_id (_device self) +:+ "." +:+ _attribute self
     /\ name self = DeviceEntity.label (_device self) +:+ " " +:+ _name self)
  /\ (_component self <> "main" ->
     unique_id self = DeviceEntity.device_id (_device self) +:+ "."
                        +:+ _component self +:+ "." +:+ _attribute self
     /\ name self = DeviceEntity.label (_device self) +:+ " "
                      +:+ _component self +:+ " " +:+ _name self)
  /\ (unique_id self = DeviceEntity.device_id (_device self) +:+ "." +:+ _attribute self
      <-> _component self = "main")
  /\ (name self = DeviceEntity.label (_device self) +:+ " " +:+ _name self
      <-> _component self = "main").
Proof.
  unfold unique_id, name.
  destruct (decide (_component self = "main")) as [Hmain|Hother].
  - repeat split; try done.
  - split; [done|]. split; [done|].
    split; (split; [|done]); intros Heq; exfalso; revert Heq.
    + apply prefixed_differs. simpl. lia.
    + apply prefixed_differs. simpl. lia.
Qed.

Lemma unique_id_and_name_composition_witness :
  (unique_id (sample_number sample_device "main") = "dev-1.coolingSetpoint"
   /\ name (sample_number sample_device "main") = "Fridge Cooling Setpoint")
  /\ (unique_id (sample_number sample_device "freezer") = "dev-1.freezer.coolingSetpoint"
   /\ name (sample_number sample_device "freezer") = "Fridge freezer Cooling Setpoint").
Proof.
  split.
  - exact (proj1 (unique_id_and_name_composition (sample_number sample_device "main"))
                 eq_refl).
  - exact (proj1 (proj2 (unique_id_and_name_composition
                           (sample_number sample_device "freezer")))
                 ltac:(discriminate)).
Defined.

(** ** [get_capabilities] *)

(** C9: [get_capabilities] always returns a list: the registry keys that occur
    in the input, in the registry's order; it is empty exactly when no input
    capability is a registry key. *)
Theorem get_capabilities_registry_keys (capabilities : list string) :
  exists supported,
    get_capabilities capabilities = Some supported
    /\ supported `sublist_of` dict_keys CAPABILITY_TO_NUMBER
    /\ (forall capability,
          capability ∈ supported <->
          capability ∈ dict_keys CAPABILITY_TO_NUMBER /\ capability ∈ capabilities)
    /\ (supported = [] <->
        forall capability,
          capability ∈ capabilities -> capability ∉ dict_keys CAPABILITY_TO_NUMBER).
Proof.
  eexists. split; [reflexivity|]. split; [apply sublist_filter|].
  assert (Hmem : forall capability,
             capability ∈ filter (fun c => c ∈ capabilities)
                                 (dict_keys CAPABILITY_TO_NUMBER) <->
             capability ∈ dict_keys CAPABILITY_TO_NUMBER /\ capability ∈ capabilities).
  { intros c. rewrite list_elem_of_filter. tauto. }
  split; [exact Hmem|]. split.
  - intros Hnil c Hc Hkey.
    assert (Hin : c ∈ filter (fun c => c ∈ capabilities)
                             (dict_keys CAPABILITY_TO_NUMBER))
      by (apply Hmem; split; assumption).
    rewrite Hnil in Hin. by apply elem_of_nil in Hin.
  - intros Hnone. apply elem_of_nil_inv. intros c [Hkey Hc]%Hmem.
    exact (Hnone c Hc Hkey).
Qed.

(** ** Dictionaries and loops *)

Section dict.
Context {V : Type}.
Implicit Types (d : dict V) (k : string).

Lemma dict_lookup_key d k : k ∈ dict_keys d -> is_Some (dict_lookup d k).
Proof.
  unfold dict_keys. induction d as [|[k' v] d IH]; simpl.
  - intros H. by apply elem_of_nil in H.
  - intros H. case_decide as Hk; [by eexists|].
    apply elem_of_cons in H as [->|H]; [done | by apply IH].
Qed.

Lemma dict_lookup_not_key d k : k ∉ dict_keys d -> dict_lookup d k = None.
Proof.
  unfold dict_keys. induction d as [|[k' v] d IH]; simpl; [done|].
  intros H. apply not_elem_of_cons in H as [Hne Hd].
  case_decide; [congruence | auto].
Qed.

Lemma dict_getitem_lookup d k v : dict_lookup d k = Some v -> getitem d k = Ok v.
Proof. intros H. unfold getitem, dict_getitem. rewrite H. reflexivity. Qed.

Lemma dict_getitem_raise d k e :
  getitem d k = Raise e -> e = KeyError k /\ k ∉ dict_keys d.
Proof.
  unfold getitem, dict_getitem, of_lookup.
  destruct (dict_lookup d k) eqn:Hlook; [discriminate|].
  intros [= <-]. split; [reflexivity|].
  intros [v Hv]%dict_lookup_key. congruence.
Qed.
End dict.

Section for_each.
Context {A S : Type}.
Implicit Types (xs : list A) (body : A -> S -> result S).

(** A loop raises only what its body raises. *)
Lemma for_each_raise_inv body xs s e :
  for_each xs body s = Raise e ->
  exists x s', x ∈ xs /\ body x s' = Raise e.
Proof.
  revert s. induction xs as [|x xs IH]; simpl; intros s; [discriminate|].
  destruct (body x s) as [s'|e'] eqn:Hbody; simpl.
  - intros (y & s'' & Hy & Hraise)%IH. exists y, s''. split; [by right | done].
  - intros [= ->]. exists x, s. split; [by left | done].
Qed.

(** A loop that meets an element on which its body always raises, raises. *)
Lemma for_each_raises body xs x :
  x ∈ xs -> (forall s, exists e, body x s = Raise e) ->
  forall s, exists e, for_each xs body s = Raise e.
Proof.
  intros Hx Hbody. induction xs as [|y xs IH]; intros s; simpl.
  - by apply elem_of_nil in Hx.
  - destruct (body y s) as [s'|e'] eqn:Hy; simpl; [|eauto].
    apply elem_of_cons in Hx as [->|Hx]; [|auto].
    destruct (Hbody s) as [e He]. congruence.
Qed.
End for_each.

(** A loop whose body only extends the list computes a comprehension. *)
Lemma for_each_extend {A B} (g : A -> list B) (body : A -> list B -> result (list B))
    (xs : list A) :
  (forall x s, x ∈ xs -> body x s = Ok (s ++ g x)) ->
  forall s, for_each xs body s = Ok (s ++ xs ≫= g).
Proof.
  induction xs as [|x xs IH]; intros Hbody s; simpl.
  - by rewrite app_nil_r.
  - rewrite Hbody by left. simpl.
    rewrite IH by (intros; apply Hbody; by right).
    by rewrite <- app_assoc.
Qed.

(** ** The registry and the factory *)

Lemma registry_getitem_known (capability : string) :
  capability ∈ dict_keys CAPABILITY_TO_NUMBER ->
  getitem CAPABILITY_TO_NUMBER capability = Ok (maps_of capability).
Proof.
  intros [maps Hmaps]%dict_lookup_key.
  unfold getitem, dict_getitem, maps_of. rewrite Hmaps. reflexivity.
Qed.

Lemma registry_getitem_unknown (capability : string) :
  capability ∉ dict_keys CAPABILITY_TO_NUMBER ->
  getitem CAPABILITY_TO_NUMBER capability = Raise (KeyError capability).
Proof.
  intros Hlook%dict_lookup_not_key.
  unfold getitem, dict_getitem. rewrite Hlook. reflexivity.
Qed.

Lemma registry_getitem_raise (capability : string) (e : exn) :
  getitem CAPABILITY_TO_NUMBER capability = Raise e -> unknown_capability e.
Proof. intros [-> Hkey]%dict_getitem_raise. by exists capability. Qed.

Section factory.
Variable device : DeviceEntity.t.
Variable assigned : list string.

Lemma assigned_loop_ok numbers :
  (forall c, c ∈ assigned -> c ∈ dict_keys CAPABILITY_TO_NUMBER) ->
  assigned_loop device assigned numbers = Ok (numbers ++ main_numbers device assigned).
Proof.
  intros Hknown. unfold assigned_loop, main_numbers.
  apply for_each_extend. intros c s Hc.
  rewrite (registry_getitem_known c (Hknown c Hc)). reflexivity.
Qed.

Lemma component_loop_ok numbers :
  (forall c, c ∈ assigned -> c ∈ dict_keys CAPABILITY_TO_NUMBER) ->
  component_loop device assigned numbers
    = Ok (numbers ++ component_numbers device assigned).
Proof.
  intros Hknown. unfold component_loop, component_numbers.
  apply for_each_extend. intros component s Hcomponent.
  destruct (dict_lookup_key _ _ Hcomponent) as [capabilities Hcaps].
  rewrite (dict_getitem_lookup _ _ _ Hcaps), bind_Ok, Hcaps.
  change (default [] (Some capabilities)) with capabilities.
  apply for_each_extend. intros c s' _.
  destruct (decide (c ∈ assigned)) as [Hc|Hc].
  - rewrite decide_False by (intros Hn; exact (Hn Hc)).
    rewrite (registry_getitem_known c (Hknown c Hc)). reflexivity.
  - rewrite decide_True by exact Hc. by rewrite app_nil_r.
Qed.

Lemma assigned_loop_raise numbers e :
  assigned_loop device assigned numbers = Raise e -> unknown_capability e.
Proof.
  intros (c & s & _ & Hbody)%for_each_raise_inv.
  destruct (getitem CAPABILITY_TO_NUMBER c) as [maps|e'] eqn:Hget;
    [discriminate|].
  injection Hbody as <-. exact (registry_getitem_raise c e' Hget).
Qed.

Lemma component_loop_raise numbers e :
  component_loop device assigned numbers = Raise e -> unknown_capability e.
Proof.
  intros (component & s & Hcomponent & Hbody)%for_each_raise_inv.
  destruct (dict_lookup_key _ _ Hcomponent) as [capabilities Hcaps].
  rewrite (dict_getitem_lookup _ _ _ Hcaps), bind_Ok in Hbody.
  apply for_each_raise_inv in Hbody as (c & s' & _ & Hbody).
  case_decide; [discriminate|].
  destruct (getitem CAPABILITY_TO_NUMBER c) as [maps|e'] eqn:Hget;
    [discriminate|].
  injection Hbody as <-. exact (registry_getitem_raise c e' Hget).
Qed.

Lemma assigned_loop_unknown numbers c :
  c ∈ assigned -> c ∉ dict_keys CAPABILITY_TO_NUMBER ->
  exists e, assigned_loop device assigned numbers = Raise e.
Proof.
  intros Hc Hkey. apply (for_each_raises _ _ c Hc). intros s.
  rewrite (registry_getitem_unknown c Hkey). by eexists.
Qed.
End factory.

Lemma device_loop_ok (broker : DeviceBroker.t) (device : DeviceEntity.t)
    (numbers : list SmartThingsNumber.t) :
  (forall c, c ∈ DeviceBroker.get_assigned broker (DeviceEntity.device_id device) "number" ->
             c ∈ dict_keys CAPABILITY_TO_NUMBER) ->
  device_loop broker device numbers = Ok (numbers ++ device_numbers broker device).
Proof.
  intros Hknown. unfold device_loop, device_numbers.
  rewrite assigned_loop_ok by exact Hknown. simpl.
  rewrite component_loop_ok by exact Hknown.
  by rewrite <- app_assoc.
Qed.

Lemma device_loop_raise (broker : DeviceBroker.t) (device : DeviceEntity.t)
    (numbers : list SmartThingsNumber.t) (e : exn) :
  device_loop broker device numbers = Raise e -> unknown_capability e.
Proof.
  unfold device_loop.
  destruct (assigned_loop _ _ _) as [numbers'|e'] eqn:Hfirst; simpl.
  - apply component_loop_raise.
  - intros [= <-]. exact (assigned_loop_raise _ _ _ _ Hfirst).
Qed.

Lemma collect_numbers_ok (broker : DeviceBroker.t) :
  (forall device c,
      device ∈ dict_values (DeviceBroker.devices broker) ->
      c ∈ DeviceBroker.get_assigned broker (DeviceEntity.device_id device) "number" ->
      c ∈ dict_keys CAPABILITY_TO_NUMBER) ->
  collect_numbers broker = Ok (all_numbers broker).
Proof.
  intros Hknown. unfold collect_numbers, all_numbers.
  rewrite (for_each_extend (device_numbers broker)); [reflexivity|].
  intros device s Hdevice. apply device_loop_ok. intros c. by apply Hknown.
Qed.

Lemma collect_numbers_unknown (broker : DeviceBroker.t) (device : DeviceEntity.t)
    (capability : string) :
  device ∈ dict_values (DeviceBroker.devices broker) ->
  capability ∈ DeviceBroker.get_assigned broker (DeviceEntity.device_id device) "number" ->
  capability ∉ dict_keys CAPABILITY_TO_NUMBER ->
  exists e, collect_numbers broker = Raise e /\ unknown_capability e.
Proof.
  intros Hdevice Hassigned Hkey.
  destruct (for_each_raises (device_loop broker) _ device Hdevice) with (s := @nil SmartThingsNumber.t)
    as [e He].
  - intros s. unfold device_loop.
    destruct (assigned_loop_unknown device _ s capability Hassigned Hkey) as [e He].
    rewrite He. by eexists.
  - exists e. split; [exact He|].
    apply for_each_raise_inv in He as (d & s & _ & Hd).
    exact (device_loop_raise _ _ _ _ Hd).
Qed.

Lemma async_setup_entry_run (broker : DeviceBroker.t) :
  run (async_setup_entry broker) =
    match collect_numbers broker with
    | Ok numbers => (Ok tt, [AddEntities numbers])
    | Raise e => (Raise e, [])
    end.
Proof.
  unfold run, async_setup_entry, mbind, M_bind, lift, emit.
  destruct (collect_numbers broker); reflexivity.
Qed.

Lemma dict_lookup_Some_key {V} (d : dict V) (k : string) (v : V) :
  dict_lookup d k = Some v -> k ∈ dict_keys d.
Proof.
  destruct (decide (k ∈ dict_keys d)) as [Hk|Hk]; [done|].
  rewrite (dict_lookup_not_key d k Hk). discriminate.
Qed.

Lemma numbers_of_bound (device : DeviceEntity.t) (component : string)
    (maps : list Map.t) (n : SmartThingsNumber.t) :
  n ∈ numbers_of device component maps -> _device n = device /\ _component n = component.
Proof. intros (m & -> & _)%list_elem_of_fmap. split; reflexivity. Qed.

(** The entity the factory builds from the registry's descriptor of the
    cooling setpoint. *)
Lemma numbers_of_cooling_setpoint (device : DeviceEntity.t) (component : string) :
  numbers_of device component (maps_of Capability.thermostat_cooling_setpoint) =
    [SmartThingsNumber device component Attribute.cooling_setpoint
       "set_cooling_setpoint" "Cooling Setpoint" None (Some "mdi:thermometer")
       (-22) 500 1 NumberMode.AUTO].
Proof. reflexivity. Qed.

(** C5: a capability that is a key of the registry has a non-empty sequence of
    descriptors; for any other the lookup raises, and a setup whose assigned
    list holds such a capability raises the lookup error and registers no
    entity. *)
Theorem registry_lookup_known_or_raises (capability : string) :
  (capability ∈ dict_keys CAPABILITY_TO_NUMBER ->
     exists maps, getitem CAPABILITY_TO_NUMBER capability = Ok maps /\ maps <> [])
  /\ (capability ∉ dict_keys CAPABILITY_TO_NUMBER ->
     getitem CAPABILITY_TO_NUMBER capability = Raise (KeyError capability)
     /\ forall broker device,
          device ∈ dict_values (DeviceBroker.devices broker) ->
          capability ∈ DeviceBroker.get_assigned broker
                         (DeviceEntity.device_id device) "number" ->
          exists key,
            (key ∉ dict_keys CAPABILITY_TO_NUMBER)
            /\ run (async_setup_entry broker) = (Raise (KeyError key), [])).
Proof.
  split.
  - intros Hkey. apply list_elem_of_singleton in Hkey as ->.
    eexists. split; [reflexivity | discriminate].
  - intros Hkey. split; [exact (registry_getitem_unknown capability Hkey)|].
    intros broker device Hdevice Hassigned.
    destruct (collect_numbers_unknown broker device capability Hdevice Hassigned Hkey)
      as (e & He & key & -> & Hunknown).
    exists key. split; [exact Hunknown|].
    rewrite async_setup_entry_run, He. reflexivity.
Qed.

Lemma registry_lookup_known_or_raises_witness :
  (exists maps,
      getitem CAPABILITY_TO_NUMBER Capability.thermostat_cooling_setpoint = Ok maps
      /\ maps <> [])
  /\ (exists key,
        (key ∉ dict_keys CAPABILITY_TO_NUMBER)
        /\ run (async_setup_entry unknown_broker) = (Raise (KeyError key), [])).
Proof.
  split.
  - apply (proj1 (registry_lookup_known_or_raises Capability.thermostat_cooling_setpoint)).
    apply list_elem_of_singleton. reflexivity.
  - assert (Hkey : "thermostatHeatingSetpoint" ∉ dict_keys CAPABILITY_TO_NUMBER).
    { intros H. apply list_elem_of_singleton in H. discriminate H. }
    apply (proj2 (proj2 (registry_lookup_known_or_raises "thermostatHeatingSetpoint") Hkey)
             unknown_broker sample_device).
    + apply list_elem_of_singleton. reflexivity.
    + right. left.
Defined.

(** C2, as amended: when every assigned capability is a key of the registry,
    the factory registers its entities in one batch, and for a device whose
    assigned capabilities hold the cooling setpoint, each component its
    components mapping lists with that capability gets an entity bound to
    it; every entity is bound to "main" or to a component that advertises
    an assigned capability. *)
Theorem component_with_assigned_capability_gets_entity (broker : DeviceBroker.t) :
  (forall device c,
      device ∈ dict_values (DeviceBroker.devices broker) ->
      c ∈ DeviceBroker.get_assigned broker (DeviceEntity.device_id device) "number" ->
      c ∈ dict_keys CAPABILITY_TO_NUMBER) ->
  exists numbers,
    run (async_setup_entry broker) = (Ok tt, [AddEntities numbers])
    /\ (forall device component capabilities,
          device ∈ dict_values (DeviceBroker.devices broker) ->
          Capability.thermostat_cooling_setpoint
            ∈ DeviceBroker.get_assigned broker (DeviceEntity.device_id device) "number" ->
          dict_lookup (DeviceEntity.components device) component = Some capabilities ->
          Capability.thermostat_cooling_setpoint ∈ capabilities ->
          SmartThingsNumber device component Attribute.cooling_setpoint
            "set_cooling_setpoint" "Cooling Setpoint" None (Some "mdi:thermometer")
            (-22) 500 1 NumberMode.AUTO ∈ numbers)
    /\ (forall n,
          n ∈ numbers ->
          _component n = "main"
          \/ exists capabilities capability,
               dict_lookup (DeviceEntity.components (_device n)) (_component n)
                 = Some capabilities
               /\ capability ∈ capabilities
               /\ capability ∈ DeviceBroker.get_assigned broker
                                  (DeviceEntity.device_id (_device n)) "number").
Proof.
  intros Hknown. exists (all_numbers broker).
  rewrite async_setup_entry_run, (collect_numbers_ok broker Hknown).
  split; [reflexivity|]. split.
  - intros device component capabilities Hdevice Hassigned Hlookup Hcap.
    apply list_elem_of_bind. exists device. split; [|exact Hdevice].
    unfold device_numbers. apply elem_of_app. right.
    apply list_elem_of_bind. exists component.
    split; [|exact (dict_lookup_Some_key _ _ _ Hlookup)].
    rewrite Hlookup. change (default [] (Some capabilities)) with capabilities.
    apply list_elem_of_bind. exists Capability.thermostat_cooling_setpoint.
    split; [|exact Hcap].
    rewrite decide_True by exact Hassigned.
    rewrite numbers_of_cooling_setpoint. apply list_elem_of_singleton. reflexivity.
  - intros n (device & Hn & Hdevice)%list_elem_of_bind.
    unfold device_numbers in Hn. apply elem_of_app in Hn as [Hn|Hn].
    + left. apply list_elem_of_bind in Hn as (c & Hn & _).
      by apply numbers_of_bound in Hn as [_ ?].
    + right. apply list_elem_of_bind in Hn as (component & Hn & Hcomponent).
      destruct (dict_lookup_key _ _ Hcomponent) as [capabilities Hcaps].
      rewrite Hcaps in Hn. change (default [] (Some capabilities)) with capabilities in Hn.
      apply list_elem_of_bind in Hn as (c & Hn & Hc).
      case_decide as Hassigned; [|by apply elem_of_nil in Hn].
      apply numbers_of_bound in Hn as [-> ->].
      exists capabilities, c. done.
Qed.

Lemma component_with_assigned_capability_gets_entity_witness :
  exists numbers,
    run (async_setup_entry sample_broker) = (Ok tt, [AddEntities numbers])
    /\ SmartThingsNumber sample_device "room2" Attribute.cooling_setpoint
         "set_cooling_setpoint" "Cooling Setpoint" None (Some "mdi:thermometer")
         (-22) 500 1 NumberMode.AUTO ∈ numbers.
Proof.
  destruct (component_with_assigned_capability_gets_entity sample_broker)
    as (numbers & Hrun & Hcreated & _).
  - intros device c _ Hc. exact Hc.
  - exists numbers. split; [exact Hrun|].
    apply (Hcreated sample_device "room2" [Capability.thermostat_cooling_setpoint]).
    + apply list_elem_of_singleton. reflexivity.
    + apply list_elem_of_singleton. reflexivity.
    + reflexivity.
    + apply list_elem_of_singleton. reflexivity.
Defined.

(** C2, as stated, fails: the sample device has the cooling setpoint assigned,
    lists "room2" with that capability, "room2" is not in the assigned result,
    and the factory registers a second entity, bound to "room2". *)
Lemma factory_creates_entity_for_room2 :
  Capability.thermostat_cooling_setpoint
    ∈ DeviceBroker.get_assigned sample_broker "dev-1" "number"
  /\ dict_lookup (DeviceEntity.components sample_device) "room2"
     = Some [Capability.thermostat_cooling_setpoint]
  /\ ("room2" ∉ DeviceBroker.get_assigned sample_broker "dev-1" "number")
  /\ exists main_number room2_number,
       run (async_setup_entry sample_broker)
         = (Ok tt, [AddEntities [main_number; room2_number]])
       /\ _component main_number = "main"
       /\ _component room2_number = "room2"
       /\ _device room2_number = sample_device.
Proof.
  split; [apply list_elem_of_singleton; reflexivity|].
  split; [reflexivity|].
  split; [intros H; apply list_elem_of_singleton in H; discriminate H|].
  do 2 eexists. split; [vm_compute; reflexivity|].
  repeat split.
Qed.

(** * Further properties of the module *)

(** ** The four properties that read the status cache *)

(** X1: [native_value], [native_min_value], [native_max_value] and
    [native_unit_of_measurement] read the same status: when the
    (component, attribute) entry is cached, [native_value] is its value and
    all four return; when the attribute is absent from the status of "main"
    or of a component the cache holds, all four return too, [native_value]
    being [None] and the others what the entity was built with; for a named
    component the cache does not hold, all four raise the [KeyError] of the
    component. *)
Theorem status_readers_agree (self : SmartThingsNumber.t) :
  (exists entry,
      cache_entry (DeviceEntity.status (_device self)) (_component self) (_attribute self)
        = Some entry
      /\ native_value self = Ok (Status.value entry)
      /\ (exists lo, native_min_value self = Ok lo)
      /\ (exists hi, native_max_value self = Ok hi)
      /\ (exists unit, native_unit_of_measurement self = Ok unit))
  \/ (cache_entry (DeviceEntity.status (_device self)) (_component self) (_attribute self)
        = None
      /\ (_component self = "main"
          \/ is_Some (DeviceStatus.components (DeviceEntity.status (_device self))
                        !! _component self))
      /\ native_value self = Ok PyNone
      /\ native_min_value self = Ok (_attr_native_min_value self)
      /\ native_max_value self = Ok (_attr_native_max_value self)
      /\ native_unit_of_measurement self = Ok (_attr_native_unit_of_measurement self))
  \/ (_component self <> "main"
      /\ DeviceStatus.components (DeviceEntity.status (_device self)) !! _component self
         = None
      /\ native_value self = Raise (KeyError (_component self))
      /\ native_min_value self = Raise (KeyError (_component self))
      /\ native_max_value self = Raise (KeyError (_component self))
      /\ native_unit_of_measurement self = Raise (KeyError (_component self))).
Proof.
  destruct (decide (_component self = "main"
                    \/ is_Some (DeviceStatus.components (DeviceEntity.status (_device self))
                                  !! _component self))) as [Hheld|Hmissing].
  - pose proof (status_entry_cached self Hheld) as Hentry.
    destruct (cache_entry (DeviceEntity.status (_device self)) (_component self)
                (_attribute self)) as [entry|] eqn:Hcache.
    + left. exists entry. change (status_entry self = Ok entry) in Hentry.
      unfold native_value, native_min_value, native_max_value,
        native_unit_of_measurement.
      rewrite Hentry, !bind_Ok.
      split; [reflexivity|]. split; [reflexivity|].
      split; [|split].
      * repeat case_decide; eauto.
      * repeat case_decide; eauto.
      * destruct (Status.unit entry) as [unit|];
          [destruct (truthy (Some unit))|]; eauto.
    + right. left.
      unfold native_value, native_min_value, native_max_value,
        native_unit_of_measurement.
      rewrite Hentry, !bind_Ok. simpl.
      split; [reflexivity|]. split; [exact Hheld|].
      split; [reflexivity|].
      repeat case_decide; repeat (split; [reflexivity|]); reflexivity.
  - right. right.
    assert (Hother : _component self <> "main") by tauto.
    assert (Hnone : DeviceStatus.components (DeviceEntity.status (_device self))
                      !! _component self = None).
    { destruct (DeviceStatus.components _ !! _component self) eqn:Hlook;
        [|reflexivity].
      exfalso. apply Hmissing. right. by eexists. }
    split; [exact Hother|]. split; [exact Hnone|].
    unfold native_value, native_min_value, native_max_value,
      native_unit_of_measurement.
    rewrite (status_entry_component_missing self Hother Hnone), !bind_Raise.
    repeat (split; [reflexivity|]). reflexivity.
Qed.

(** ** Bounds *)

(** X2: with the entry in the status cache, both bounds are returned and the
    minimum does not exceed the maximum whenever the bounds the entity was
    built with are ordered: the table rows are ordered too. *)
Theorem bounds_ordered (self : SmartThingsNumber.t) (entry : Status.t) :
  cache_entry (DeviceEntity.status (_device self)) (_component self) (_attribute self)
    = Some entry ->
  _attr_native_min_value self <= _attr_native_max_value self ->
  exists lo hi,
    native_min_value self = Ok lo /\ native_max_value self = Ok hi /\ lo <= hi.
Proof.
  intros Hentry%status_entry_present Hle.
  unfold native_min_value, native_max_value. rewrite Hentry, !bind_Ok.
  repeat case_decide; do 2 eexists; (split; [reflexivity|]);
    (split; [reflexivity|]); lia.
Qed.

Lemma bounds_ordered_witness :
  exists lo hi,
    native_min_value (sample_number sample_device "freezer") = Ok lo
    /\ native_max_value (sample_number sample_device "freezer") = Ok hi
    /\ lo <= hi.
Proof.
  apply (bounds_ordered (sample_number sample_device "freezer")
           (Status.Status (PyInt (-18)) (Some "C"))).
  - vm_compute; reflexivity.
  - vm_compute; discriminate.
Defined.

(** ** [async_set_native_value] outside the finite floats and toward zero *)

(** X3: on NaN and on the infinities [async_set_native_value] raises
    ([ValueError], [OverflowError]) before anything is sent: no command call
    and no state-write signal. *)
Theorem set_value_non_finite_raises (self : SmartThingsNumber.t) (value : float) :
  is_finite value = false ->
  exists e,
    run (async_set_native_value self value) = (Raise e, [])
    /\ (e = ValueError \/ e = OverflowError).
Proof.
  intros Hfin. destruct value as [s|s| |s m e]; simpl in Hfin; try discriminate.
  - exists OverflowError. split; [|by right].
    apply async_set_native_value_int_raises. reflexivity.
  - exists ValueError. split; [|by left].
    apply async_set_native_value_int_raises. reflexivity.
Qed.

Lemma set_value_non_finite_raises_witness :
  exists e,
    run (async_set_native_value (sample_number sample_device "cooler")
           (S754_infinity true)) = (Raise e, [])
    /\ (e = ValueError \/ e = OverflowError).
Proof.
  apply (set_value_non_finite_raises (sample_number sample_device "cooler")
           (S754_infinity true)).
  reflexivity.
Defined.

(** X4: for a finite value the integer sent lies between zero and the value,
    less than one away from it: a negative setpoint is not rounded down and
    a positive one is not rounded up. *)
Theorem set_value_argument_toward_zero (self : SmartThingsNumber.t) (value : float) :
  is_finite value = true ->
  exists n,
    device_commands (snd (run (async_set_native_value self value)))
      = [cooling_setpoint_call self n]
    /\ (0 <= float_value value ->
        inject_Z n <= float_value value /\ float_value value < inject_Z (n + 1))%Q
    /\ (float_value value <= 0 ->
        float_value value <= inject_Z n /\ inject_Z (n - 1) < float_value value)%Q.
Proof.
  intros Hfin. exists (trunc (float_value value)). split.
  - rewrite (async_set_native_value_run self value _ (int_finite value Hfin)).
    destruct (DeviceEntity.command _ _ _ _ _); reflexivity.
  - apply trunc_toward_zero.
Qed.

Lemma set_value_argument_toward_zero_witness :
  exists n,
    device_commands
      (snd (run (async_set_native_value (sample_number sample_device "freezer")
                   (S754_finite true 6108006994621235 (-48)))))
      = [cooling_setpoint_call (sample_number sample_device "freezer") n]
    /\ (0 <= float_value (S754_finite true 6108006994621235 (-48)) ->
        inject_Z n <= float_value (S754_finite true 6108006994621235 (-48))
        /\ float_value (S754_finite true 6108006994621235 (-48)) < inject_Z (n + 1))%Q
    /\ (float_value (S754_finite true 6108006994621235 (-48)) <= 0 ->
        float_value (S754_finite true 6108006994621235 (-48)) <= inject_Z n
        /\ inject_Z (n - 1) < float_value (S754_finite true 6108006994621235 (-48)))%Q.
Proof.
  apply (set_value_argument_toward_zero (sample_number sample_device "freezer")
           (S754_finite true 6108006994621235 (-48))).
  reflexivity.
Defined.

(** ** The factory *)

Lemma collect_numbers_Ok_inv (broker : DeviceBroker.t) (numbers : list SmartThingsNumber.t) :
  collect_numbers broker = Ok numbers ->
  (forall device c,
      device ∈ dict_values (DeviceBroker.devices broker) ->
      c ∈ DeviceBroker.get_assigned broker (DeviceEntity.device_id device) "number" ->
      c ∈ dict_keys CAPABILITY_TO_NUMBER)
  /\ numbers = all_numbers broker.
Proof.
  intros Hok.
  assert (Hknown : forall device c,
             device ∈ dict_values (DeviceBroker.devices broker) ->
             c ∈ DeviceBroker.get_assigned broker (DeviceEntity.device_id device) "number" ->
             c ∈ dict_keys CAPABILITY_TO_NUMBER).
  { intros device c Hdevice Hc.
    destruct (decide (c ∈ dict_keys CAPABILITY_TO_NUMBER)) as [|Hkey]; [done|].
    destruct (collect_numbers_unknown broker device c Hdevice Hc Hkey) as (e & He & _).
    congruence. }
  split; [exact Hknown|].
  rewrite (collect_numbers_ok broker Hknown) in Hok. congruence.
Qed.

Lemma async_setup_entry_Ok_inv (broker : DeviceBroker.t) (numbers : list SmartThingsNumber.t) :
  run (async_setup_entry broker) = (Ok tt, [AddEntities numbers]) ->
  collect_numbers broker = Ok numbers.
Proof.
  rewrite async_setup_entry_run.
  destruct (collect_numbers broker) as [numbers'|e]; [|discriminate].
  intros [= ->]. reflexivity.
Qed.

(** X5: the setup registers a batch exactly when every capability assigned to
    a device of the broker is a key of the registry; otherwise it raises and
    registers nothing.  The capabilities a component advertises without
    their being assigned are never looked up, whatever they are. *)
Theorem setup_succeeds_iff_assigned_known (broker : DeviceBroker.t) :
  ((exists numbers, run (async_setup_entry broker) = (Ok tt, [AddEntities numbers]))
   <-> (forall device c,
          device ∈ dict_values (DeviceBroker.devices broker) ->
          c ∈ DeviceBroker.get_assigned broker (DeviceEntity.device_id device) "number" ->
          c ∈ dict_keys CAPABILITY_TO_NUMBER))
  /\ ((exists numbers, run (async_setup_entry broker) = (Ok tt, [AddEntities numbers]))
      \/ (exists e, run (async_setup_entry broker) = (Raise e, []))).
Proof.
  split.
  - split.
    + intros [numbers Hrun%async_setup_entry_Ok_inv].
      exact (proj1 (collect_numbers_Ok_inv broker numbers Hrun)).
    + intros Hknown. exists (all_numbers broker).
      rewrite async_setup_entry_run, (collect_numbers_ok broker Hknown). reflexivity.
  - rewrite async_setup_entry_run.
    destruct (collect_numbers broker) as [numbers|e]; [left|right]; eauto.
Qed.

(** X6: when the setup succeeds it registers one batch, the entities in the
    order of the loops: device by device, first one entity per descriptor of
    each assigned capability, bound to "main", then, component by component,
    one per descriptor of each advertised capability that is assigned. *)
Theorem setup_registers_in_loop_order (broker : DeviceBroker.t)
    (numbers : list SmartThingsNumber.t) :
  run (async_setup_entry broker) = (Ok tt, [AddEntities numbers]) ->
  numbers =
    dict_values (DeviceBroker.devices broker) ≫= (fun device =>
      let assigned :=
        DeviceBroker.get_assigned broker (DeviceEntity.device_id device) "number" in
      (assigned ≫= (fun capability => numbers_of device "main" (maps_of capability)))
      ++ (dict_keys (DeviceEntity.components device) ≫= (fun component =>
            default [] (dict_lookup (DeviceEntity.components device) component) ≫=
              (fun capability =>
                 if decide (capability ∈ assigned)
                 then numbers_of device component (maps_of capability)
                 else [])))).
Proof.
  intros Hrun%async_setup_entry_Ok_inv.
  exact (proj2 (collect_numbers_Ok_inv broker numbers Hrun)).
Qed.

Lemma setup_registers_in_loop_order_witness :
  [SmartThingsNumber sample_device "main" Attribute.cooling_setpoint
     "set_cooling_setpoint" "Cooling Setpoint" None (Some "mdi:thermometer")
     (-22) 500 1 NumberMode.AUTO;
   SmartThingsNumber sample_device "room2" Attribute.cooling_setpoint
     "set_cooling_setpoint" "Cooling Setpoint" None (Some "mdi:thermometer")
     (-22) 500 1 NumberMode.AUTO]
  = all_numbers sample_broker.
Proof.
  apply (setup_registers_in_loop_order sample_broker).
  vm_compute; reflexivity.
Defined.

Lemma all_numbers_from_descriptor (broker : DeviceBroker.t) (n : SmartThingsNumber.t) :
  n ∈ all_numbers broker ->
  _device n ∈ dict_values (DeviceBroker.devices broker)
  /\ exists capability m,
       capability ∈ DeviceBroker.get_assigned broker
                      (DeviceEntity.device_id (_device n)) "number"
       /\ m ∈ maps_of capability
       /\ n = SmartThingsNumber (_device n) (_component n)
                (Map.attribute m) (Map.command m) (Map.name m)
                (Map.unit_of_measurement m) (Map.icon m)
                (Map.min_value m) (Map.max_value m) (Map.step m) (Map.mode m).
Proof.
  intros (device & Hn & Hdevice)%list_elem_of_bind.
  assert (Hof : forall component capability,
             capability ∈ DeviceBroker.get_assigned broker
                            (DeviceEntity.device_id device) "number" ->
             n ∈ numbers_of device component (maps_of capability) ->
             _device n ∈ dict_values (DeviceBroker.devices broker)
             /\ exists capability m,
                  capability ∈ DeviceBroker.get_assigned broker
                                 (DeviceEntity.device_id (_device n)) "number"
                  /\ m ∈ maps_of capability
                  /\ n = SmartThingsNumber (_device n) (_component n)
                           (Map.attribute m) (Map.command m) (Map.name m)
                           (Map.unit_of_measurement m) (Map.icon m)
                           (Map.min_value m) (Map.max_value m) (Map.step m) (Map.mode m)).
  { intros component capability Hassigned (m & -> & Hm)%list_elem_of_fmap. simpl.
    split; [exact Hdevice|]. exists capability, m. done. }
  unfold device_numbers in Hn. apply elem_of_app in Hn as [Hn|Hn].
  - apply list_elem_of_bind in Hn as (c & Hn & Hc). exact (Hof "main" c Hc Hn).
  - apply list_elem_of_bind in Hn as (component & Hn & _).
    apply list_elem_of_bind in Hn as (c & Hn & _).
    case_decide as Hassigned; [|by apply elem_of_nil in Hn].
    exact (Hof component c Hassigned Hn).
Qed.

(** X7: every entity the setup registers belongs to a device of the broker
    and is built from a descriptor of a capability assigned to that device:
    its attribute, command, name, icon, step and mode are the descriptor's
    fields of those names, and its configured unit and bounds are the
    descriptor's. *)
Theorem registered_entity_from_descriptor (broker : DeviceBroker.t)
    (numbers : list SmartThingsNumber.t) (n : SmartThingsNumber.t) :
  run (async_setup_entry broker) = (Ok tt, [AddEntities numbers]) ->
  n ∈ numbers ->
  _device n ∈ dict_values (DeviceBroker.devices broker)
  /\ exists capability maps m,
       capability ∈ DeviceBroker.get_assigned broker
                      (DeviceEntity.device_id (_device n)) "number"
       /\ getitem CAPABILITY_TO_NUMBER capability = Ok maps
       /\ m ∈ maps
       /\ _attribute n = Map.attribute m
       /\ _command n = Map.command m
       /\ _name n = Map.name m
       /\ _attr_native_unit_of_measurement n = Map.unit_of_measurement m
       /\ icon n = Map.icon m
       /\ _attr_native_min_value n = Map.min_value m
       /\ _attr_native_max_value n = Map.max_value m
       /\ native_step n = Map.step m
       /\ mode n = Map.mode m.
Proof.
  intros Hrun%async_setup_entry_Ok_inv Hn.
  destruct (collect_numbers_Ok_inv broker numbers Hrun) as [Hknown ->].
  destruct (all_numbers_from_descriptor broker n Hn)
    as (Hdevice & capability & m & Hassigned & Hm & Heq).
  split; [exact Hdevice|].
  exists capability, (maps_of capability), m.
  split; [exact Hassigned|].
  split; [exact (registry_getitem_known capability
                   (Hknown (_device n) capability Hdevice Hassigned))|].
  split; [exact Hm|].
  unfold icon, native_step, mode. rewrite Heq. simpl. repeat split.
Qed.

Lemma registered_entity_from_descriptor_witness :
  _device (SmartThingsNumber sample_device "room2" Attribute.cooling_setpoint
             "set_cooling_setpoint" "Cooling Setpoint" None (Some "mdi:thermometer")
             (-22) 500 1 NumberMode.AUTO)
    ∈ dict_values (DeviceBroker.devices sample_broker).
Proof.
  refine (proj1 (registered_entity_from_descriptor sample_broker (all_numbers sample_broker)
                   (SmartThingsNumber sample_device "room2" Attribute.cooling_setpoint
                      "set_cooling_setpoint" "Cooling Setpoint" None
                      (Some "mdi:thermometer") (-22) 500 1 NumberMode.AUTO) _ _)).
  - vm_compute; reflexivity.
  - apply list_elem_of_bind. exists sample_device. split.
    + right. left.
    + left.
Defined.

(** X8: an entity the setup registers, whose entry is in the status cache,
    reports bounds with -22 <= minimum < maximum <= 500: the bounds of the
    registry's descriptor, or a row of the cooler and freezer table, which
    lies within them. *)
Theorem registered_bounds_in_range (broker : DeviceBroker.t)
    (numbers : list SmartThingsNumber.t) (n : SmartThingsNumber.t) (entry : Status.t) :
  run (async_setup_entry broker) = (Ok tt, [AddEntities numbers]) ->
  n ∈ numbers ->
  cache_entry (DeviceEntity.status (_device n)) (_component n) (_attribute n)
    = Some entry ->
  exists lo hi,
    native_min_value n = Ok lo /\ native_max_value n = Ok hi
    /\ -22 <= lo /\ lo < hi /\ hi <= 500.
Proof.
  intros Hrun%async_setup_entry_Ok_inv Hn Hentry%status_entry_present.
  destruct (collect_numbers_Ok_inv broker numbers Hrun) as [Hknown ->].
  destruct (all_numbers_from_descriptor broker n Hn)
    as (Hdevice & capability & m & Hassigned & Hm & Heq).
  assert (Hbounds : _attr_native_min_value n = -22 /\ _attr_native_max_value n = 500).
  { rewrite Heq. simpl.
    pose proof (Hknown (_device n) capability Hdevice Hassigned) as Hkey.
    apply list_elem_of_singleton in Hkey as ->.
    apply list_elem_of_singleton in Hm as ->. split; reflexivity. }
  destruct Hbounds as [Hmin Hmax].
  unfold native_min_value, native_max_value. rewrite Hentry, !bind_Ok, Hmin, Hmax.
  repeat case_decide; do 2 eexists; (split; [reflexivity|]);
    (split; [reflexivity|]); lia.
Qed.

Lemma registered_bounds_in_range_witness :
  exists lo hi,
    native_min_value (SmartThingsNumber sample_device "room2" Attribute.cooling_setpoint
                        "set_cooling_setpoint" "Cooling Setpoint" None
                        (Some "mdi:thermometer") (-22) 500 1 NumberMode.AUTO) = Ok lo
    /\ native_max_value (SmartThingsNumber sample_device "room2" Attribute.cooling_setpoint
                        "set_cooling_setpoint" "Cooling Setpoint" None
                        (Some "mdi:thermometer") (-22) 500 1 NumberMode.AUTO) = Ok hi
    /\ -22 <= lo /\ lo < hi /\ hi <= 500.
Proof.
  apply (registered_bounds_in_range sample_broker (all_numbers sample_broker)
           (SmartThingsNumber sample_device "room2" Attribute.cooling_setpoint
              "set_cooling_setpoint" "Cooling Setpoint" None
              (Some "mdi:thermometer") (-22) 500 1 NumberMode.AUTO)
           (Status.Status (PyInt 21) (Some "K"))).
  - vm_compute; reflexivity.
  - apply list_elem_of_bind. exists sample_device. split.
    + right. left.
    + left.
  - vm_compute; reflexivity.
Defined.

(** ** [get_capabilities] *)

Lemma filter_ext_in {A} (P Q : A -> Prop) `{!forall x, Decision (P x)}
    `{!forall x, Decision (Q x)} (l : list A) :
  (forall x, x ∈ l -> (P x <-> Q x)) -> filter P l = filter Q l.
Proof.
  induction l as [|a l IH]; intros Hext; [reflexivity|].
  rewrite !filter_cons.
  rewrite IH by (intros x Hx; apply Hext; by right).
  apply decide_ext, Hext. by left.
Qed.

Lemma registry_keys_NoDup : NoDup (dict_keys CAPABILITY_TO_NUMBER).
Proof. apply NoDup_singleton. Qed.

(** X9: the result of [get_capabilities] depends only on which capabilities
    occur in the input, not on their order or repetitions; it has no
    repetition itself, and [get_capabilities] maps it to itself. *)
Theorem get_capabilities_stable (capabilities capabilities' : list string) :
  (forall c, c ∈ capabilities <-> c ∈ capabilities') ->
  exists supported,
    get_capabilities capabilities = Some supported
    /\ get_capabilities capabilities' = Some supported
    /\ get_capabilities supported = Some supported
    /\ NoDup supported.
Proof.
  intros Hsame. eexists. split; [reflexivity|].
  unfold get_capabilities. split; [|split].
  - f_equal. apply list_filter_iff. intros c. symmetry. apply Hsame.
  - f_equal. apply filter_ext_in. intros c Hc.
    rewrite list_elem_of_filter. tauto.
  - apply NoDup_filter, registry_keys_NoDup.
Qed.

Lemma get_capabilities_stable_witness :
  exists supported,
    get_capabilities ["switch"; "thermostatCoolingSetpoint"; "switch"] = Some supported
    /\ get_capabilities ["thermostatCoolingSetpoint"; "switch"] = Some supported
    /\ get_capabilities supported = Some supported
    /\ NoDup supported.
Proof.
  apply (get_capabilities_stable
           ["switch"; "thermostatCoolingSetpoint"; "switch"]
           ["thermostatCoolingSetpoint"; "switch"]).
  intros c. rewrite !elem_of_cons, !elem_of_nil. tauto.
Defined.

(** X10: [get_capabilities] and the factory agree on what is supported: when
    each capability assigned to a device is one [get_capabilities] returns
    for some input, the setup does not raise and registers one batch.  An
    empty broker registers the empty batch. *)
Theorem setup_succeeds_on_supported_capabilities (broker : DeviceBroker.t) :
  (forall device c,
      device ∈ dict_values (DeviceBroker.devices broker) ->
      c ∈ DeviceBroker.get_assigned broker (DeviceEntity.device_id device) "number" ->
      exists capabilities supported,
        get_capabilities capabilities = Some supported /\ c ∈ supported) ->
  (exists numbers, run (async_setup_entry broker) = (Ok tt, [AddEntities numbers]))
  /\ (DeviceBroker.devices broker = [] ->
      run (async_setup_entry broker) = (Ok tt, [AddEntities []])).
Proof.
  intros Hsupported.
  assert (Hknown : forall device c,
             device ∈ dict_values (DeviceBroker.devices broker) ->
             c ∈ DeviceBroker.get_assigned broker (DeviceEntity.device_id device) "number" ->
             c ∈ dict_keys CAPABILITY_TO_NUMBER).
  { intros device c Hdevice Hc.
    destruct (Hsupported device c Hdevice Hc) as (capabilities & supported & Hget & Hin).
    injection Hget as <-. apply list_elem_of_filter in Hin as [_ Hkey]. exact Hkey. }
  rewrite async_setup_entry_run, (collect_numbers_ok broker Hknown).
  split; [by eexists|].
  intros Hempty. unfold all_numbers. rewrite Hempty. reflexivity.
Qed.

Lemma setup_succeeds_on_supported_capabilities_witness :
  exists numbers, run (async_setup_entry sample_broker) = (Ok tt, [AddEntities numbers]).
Proof.
  apply (setup_succeeds_on_supported_capabilities sample_broker).
  intros device c _ Hc.
  exists ["thermostatCoolingSetpoint"], ["thermostatCoolingSetpoint"].
  split; [reflexivity | exact Hc].
Defined.

(** ** Identity and unit *)

Lemma string_app_inj_r (s1 s2 t : string) : s1 +:+ t = s2 +:+ t -> s1 = s2.
Proof.
  revert s2. induction s1 as [|a s1 IH]; intros [|b s2] Heq.
  - reflexivity.
  - apply (f_equal String.length) in Heq.
    rewrite !string_length_app in Heq. simpl in Heq. lia.
  - apply (f_equal String.length) in Heq.
    rewrite !string_length_app in Heq. simpl in Heq. lia.
  - change (String a (s1 +:+ t) = String b (s2 +:+ t)) in Heq.
    injection Heq as -> Heq. f_equal. by apply IH.
Qed.

Lemma composed_same_component (h sep tail ca cb : string) :
  (0 < String.length sep)%nat ->
  (if decide (ca = "main") then h +:+ sep +:+ tail
   else h +:+ sep +:+ ca +:+ sep +:+ tail)
  = (if decide (cb = "main") then h +:+ sep +:+ tail
     else h +:+ sep +:+ cb +:+ sep +:+ tail) ->
  ca = cb.
Proof.
  intros Hsep.
  destruct (decide (ca = "main")) as [->|Ha], (decide (cb = "main")) as [->|Hb].
  - reflexivity.
  - intros Heq. symmetry in Heq. by apply prefixed_differs in Heq.
  - intros Heq. by apply prefixed_differs in Heq.
  - intros Heq. do 2 apply String.app_inj in Heq.
    by apply string_app_inj_r in Heq.
Qed.

(** X11: on one device, two entities of the same attribute have the same
    unique id only if they are bound to the same component; likewise two
    entities of the same display name on devices of the same label have the
    same name only if they are bound to the same component. *)
Theorem unique_id_distinguishes_components (a b : SmartThingsNumber.t) :
  (DeviceEntity.device_id (_device a) = DeviceEntity.device_id (_device b) ->
   _attribute a = _attribute b ->
   unique_id a = unique_id b -> _component a = _component b)
  /\ (DeviceEntity.label (_device a) = DeviceEntity.label (_device b) ->
      _name a = _name b ->
      name a = name b -> _component a = _component b).
Proof.
  unfold unique_id, name. split; intros -> ->; apply composed_same_component;
    simpl; lia.
Qed.

Lemma unique_id_distinguishes_components_witness :
  unique_id (sample_number sample_device "cooler")
    = unique_id (sample_number offline_device "cooler")
  /\ _component (sample_number sample_device "cooler")
     = _component (sample_number offline_device "cooler").
Proof.
  split; [reflexivity|].
  exact (proj1 (unique_id_distinguishes_components
                  (sample_number sample_device "cooler")
                  (sample_number offline_device "cooler"))
               eq_refl eq_refl eq_refl).
Defined.

(** X12: with the entry in the status cache, an empty cached unit is treated
    as no unit (the unit the entity was built with is returned), and a
    non-empty cached unit never comes back as the bare symbol "C" or "F". *)
Theorem unit_of_measurement_edge_cases (self : SmartThingsNumber.t) (entry : Status.t) :
  cache_entry (DeviceEntity.status (_device self)) (_component self) (_attribute self)
    = Some entry ->
  (Status.unit entry = Some "" ->
     native_unit_of_measurement self = Ok (_attr_native_unit_of_measurement self))
  /\ (forall unit, Status.unit entry = Some unit -> unit <> "" ->
        exists shown,
          native_unit_of_measurement self = Ok (Some shown)
          /\ shown <> "C" /\ shown <> "F").
Proof.
  intros Hentry%status_entry_present.
  unfold native_unit_of_measurement. rewrite Hentry, bind_Ok.
  split.
  - intros ->. reflexivity.
  - intros unit -> Hne. rewrite (truthy_nonempty unit Hne).
    exists (units_get unit). split; [reflexivity|].
    destruct (decide (unit = "C")) as [->|HC]; [split; discriminate|].
    destruct (decide (unit = "F")) as [->|HF]; [split; discriminate|].
    rewrite (units_get_other unit HC HF). split; assumption.
Qed.

Lemma unit_of_measurement_edge_cases_witness :
  exists shown,
    native_unit_of_measurement (sample_number sample_device "cooler") = Ok (Some shown)
    /\ shown <> "C" /\ shown <> "F".
Proof.
  refine (proj2 (unit_of_measurement_edge_cases
                   (sample_number sample_device "cooler")
                   (Status.Status (PyInt 38) (Some "F")) _) "F" eq_refl _).
  - vm_compute; reflexivity.
  - discriminate.
Defined.
